(** * tracer.py: geo-enhanced traceroute

    A shallow embedding of [src/tracer.py] (class [LocalGeoTraceroute] and
    [main]) together with the properties of its hop-processing pipeline.

    Conventions of the embedding:
    - text is [string] (a list of 8-bit characters); the trace utility's
      output is ASCII, and [str.lower] is modelled on the ASCII letters;
    - Python's [print], the database readers, [socket.gethostbyname],
      [subprocess.Popen] and the clock are the outside world: the calls
      are recorded as [event]s, and what they answer is read from a
      [world] record;
    - a raised exception is an [outcome]: every exception of the model is
      an instance of Python's [Exception] (what [except Exception]
      catches);
    - floats are never computed with: latitude and longitude are values
      of an abstract type, printed by an abstract [str_float];
    - [run_traceroute_realtime] is written as its two halves in sequence,
      [print_summary] (lines 99-112) and [trace] (lines 114-157);
    - [__del__] is modelled on the object's two reader attributes
      ([init_object], [del]); when the interpreter calls it is not. *)

From Stdlib Require Import Ascii String List Arith Bool ZArith Lia.
From Stdlib Require Import Decimal DecimalString.
Import ListNotations.

Set Implicit Arguments.

Local Open Scope list_scope.
Local Open Scope string_scope.

(* ================================================================== *)
(** ** Python strings *)

Module PyStr.

Definition code (c : ascii) : nat := nat_of_ascii c.

Definition is_upper (c : ascii) : bool := ((65 <=? code c) && (code c <=? 90))%nat.

(** [[0-9]] in a [str] pattern: the ten ASCII digits only. *)
Definition is_digit (c : ascii) : bool := ((48 <=? code c) && (code c <=? 57))%nat.

Definition is_dot (c : ascii) : bool := Ascii.eqb c "."%char.

(** The ASCII characters [str.strip()] removes. *)
Definition is_space (c : ascii) : bool :=
  (((9 <=? code c) && (code c <=? 13)) || ((28 <=? code c) && (code c <=? 32)))%nat.

Definition lower_char (c : ascii) : ascii :=
  if is_upper c then ascii_of_nat (code c + 32) else c.

(** [s.lower()] *)
Fixpoint lower (s : string) : string :=
  match s with
  | EmptyString => EmptyString
  | String c s' => String (lower_char c) (lower s')
  end.

(** [sub in s] *)
Fixpoint contains (sub s : string) : bool :=
  if prefix sub s then true
  else match s with
       | EmptyString => false
       | String _ s' => contains sub s'
       end.

Fixpoint lstrip (s : string) : string :=
  match s with
  | EmptyString => EmptyString
  | String c s' => if is_space c then lstrip s' else s
  end.

Fixpoint rstrip (s : string) : string :=
  match s with
  | EmptyString => EmptyString
  | String c s' =>
      match rstrip s' with
      | EmptyString => if is_space c then EmptyString else String c EmptyString
      | r => String c r
      end
  end.

(** [s.strip()] *)
Definition strip (s : string) : string := rstrip (lstrip s).

(** [c * n] for a one-character string [c] *)
Fixpoint repeat_char (c : ascii) (n : nat) : string :=
  match n with
  | 0 => EmptyString
  | S n' => String c (repeat_char c n')
  end.

(** [sep.join(parts)] *)
Definition join (sep : string) (parts : list string) : string :=
  String.concat sep parts.

(** [str(n)] for a non-negative [int] held in a [nat], and for an [int]. *)
Definition str_nat (n : nat) : string := NilZero.string_of_uint (Nat.to_uint n).
Definition str_int (z : Z) : string := NilZero.string_of_int (Z.to_int z).

(** [all(p(c) for c in s)] *)
Fixpoint all (p : ascii -> bool) (s : string) : bool :=
  match s with
  | EmptyString => true
  | String c s' => p c && all p s'
  end.

End PyStr.

(* ================================================================== *)
(** ** The fragment of Python's [re] that [ip_pattern] uses

    A backtracking matcher in continuation-passing style: a pattern is
    tried against the text at a position and hands the remaining text to
    its continuation; a failing continuation makes the pattern try its
    next alternative.  Bounded repetition [r{lo,hi}] is greedy: once the
    [lo] required repetitions are matched, each optional one is tried
    before the continuation is. *)

Module Re.

Inductive regex : Type :=
| Class (p : ascii -> bool)            (* a character class such as [0-9], or \. *)
| Cat (r1 r2 : regex)                  (* r1 r2 *)
| Repeat (lo hi : nat) (r : regex).    (* (?:r){lo,hi} *)

Definition cont : Type := string -> option string.
Definition matcher : Type := string -> cont -> option string.

Fixpoint rep_upto (m : matcher) (extra : nat) (s : string) (k : cont)
  : option string :=
  match extra with
  | 0 => k s
  | S e =>
      match m s (fun s' => rep_upto m e s' k) with
      | Some rest => Some rest
      | None => k s
      end
  end.

Fixpoint rep_exact (m : matcher) (lo : nat) (after : matcher)
         (s : string) (k : cont) : option string :=
  match lo with
  | 0 => after s k
  | S n => m s (fun s' => rep_exact m n after s' k)
  end.

(** [rmatch r s k]: match [r] at the start of [s]; on success the
    result is what [k] answers on the text left over. *)
Fixpoint rmatch (r : regex) (s : string) (k : cont) : option string :=
  match r with
  | Class p =>
      match s with
      | String c s' => if p c then k s' else None
      | EmptyString => None
      end
  | Cat r1 r2 => rmatch r1 s (fun s' => rmatch r2 s' k)
  | Repeat lo hi r =>
      rep_exact (rmatch r) lo (rep_upto (rmatch r) (hi - lo)) s k
  end.

(** [re.match(r, s)]: the text matched at the start of [s]. *)
Definition match_at (r : regex) (s : string) : option string :=
  match rmatch r s Some with
  | Some rest => Some (substring 0 (String.length s - String.length rest) s)
  | None => None
  end.

(** [re.search(r, s)] followed by [.group()]: the match at the first
    position of [s] where [r] matches. *)
Fixpoint search (r : regex) (s : string) : option string :=
  match match_at r s with
  | Some m => Some m
  | None =>
      match s with
      | EmptyString => None
      | String _ s' => search r s'
      end
  end.

(** The words a pattern denotes. *)
Fixpoint power (L : string -> Prop) (n : nat) (s : string) : Prop :=
  match n with
  | 0 => s = EmptyString
  | S n' => exists s1 s2, s = s1 ++ s2 /\ L s1 /\ power L n' s2
  end.

Fixpoint lang (r : regex) (s : string) : Prop :=
  match r with
  | Class p => exists c, s = String c EmptyString /\ p c = true
  | Cat r1 r2 => exists s1 s2, s = s1 ++ s2 /\ lang r1 s1 /\ lang r2 s2
  | Repeat lo hi r => exists n, (lo <= n <= lo + (hi - lo))%nat /\ power (lang r) n s
  end.

End Re.

(* ================================================================== *)
(** ** Constants of the source *)

(** [self.ip_pattern = r'(?:[0-9]{1,3}\.){3}[0-9]{1,3}'] *)
Definition octet : Re.regex := Re.Repeat 1 3 (Re.Class PyStr.is_digit).

Definition ip_pattern : Re.regex :=
  Re.Cat (Re.Repeat 3 3 (Re.Cat octet (Re.Class PyStr.is_dot))) octet.

Definition CITY_DB_PATH : string := "GeoLite2-City.mmdb".
Definition ASN_DB_PATH : string := "GeoLite2-ASN.mmdb".

Definition ESC : string := String (ascii_of_nat 27) EmptyString.
Definition NL : string := String (ascii_of_nat 10) EmptyString.

Definition BOLD : string := ESC ++ "[1m".
Definition BLUE : string := ESC ++ "[94m".
Definition GREEN : string := ESC ++ "[92m".
Definition RESET : string := ESC ++ "[0m".

(** The test that opens the read loop:
    ['traceroute to' in line.lower() or 'tracing route to' in line.lower()] *)
Definition is_header (line : string) : bool :=
  PyStr.contains "traceroute to" (PyStr.lower line)
  || PyStr.contains "tracing route to" (PyStr.lower line).

(* ================================================================== *)
(** ** Effects: a trace of calls, and exceptions *)

(** An instance of [Exception]; [str_exn] is what [str(e)] gives. *)
Record exn : Type := Exception { str_exn : string }.

Inductive outcome (A : Type) : Type :=
| Return (a : A)
| Raise (e : exn).

Arguments Return {A} a.
Arguments Raise {A} e.

(** The calls that leave the program, in the order they are made. *)
Inductive event : Type :=
| EvOpen (path : string)          (* geoip2.database.Reader(path) *)
| EvResolve (host : string)       (* socket.gethostbyname(host) *)
| EvCity (ip : string)            (* city_reader.city(ip) *)
| EvAsn (ip : string)             (* asn_reader.asn(ip) *)
| EvPrint (text : string)         (* print(text) *)
| EvFlush                         (* sys.stdout.flush() *)
| EvPopen (cmd : list string)     (* subprocess.Popen(cmd, ...) *)
| EvWait.                         (* process.wait() *)

(** A computation: the calls it made, and how it ended. *)
Definition io (A : Type) : Type := (list event * outcome A)%type.

Definition ret {A : Type} (a : A) : io A := ([], Return a).

Definition raise {A : Type} (e : exn) : io A := ([], Raise e).

Definition bind {A B : Type} (m : io A) (f : A -> io B) : io B :=
  match m with
  | (t, Return a) => let (t', r) := f a in ((t ++ t')%list, r)
  | (t, Raise e) => (t, Raise e)
  end.

(** [try: m  except Exception as e: h e] *)
Definition try_except {A : Type} (m : io A) (h : exn -> io A) : io A :=
  match m with
  | (t, Raise e) => let (t', r) := h e in ((t ++ t')%list, r)
  | (t, Return a) => (t, Return a)
  end.

(** A call to the outside world: recorded, and answered by the world. *)
Definition call {A : Type} (e : event) (answer : outcome A) : io A := ([e], answer).

Definition print (text : string) : io unit := call (EvPrint text) (Return tt).

Declare Scope io_scope.
Delimit Scope io_scope with io.
Notation "x <- m ;; k" := (bind m (fun x => k))
  (at level 61, m at next level, right associativity) : io_scope.
Notation "m ;; k" := (bind m (fun _ => k))
  (at level 61, right associativity) : io_scope.
Local Open Scope io_scope.

(** What iterating over [process.stdout] gives: a line and the rest, the
    end of the stream, or an exception raised by the read. *)
Inductive stream : Type :=
| Eof
| Line (line : string) (rest : stream)
| ReadError (e : exn).

Record process : Type := {
  stdout : stream;
  returncode : Z          (* after [process.wait()] *)
}.

(** [v if v else None] for a [str | None]: the value when it is true
    (a [str] that is not empty). *)
Definition if_true (v : option string) : option string :=
  match v with
  | Some s => if s =? "" then None else Some s
  | None => None
  end.

(** [v or default] for a [str | None] *)
Definition or_default (v : option string) (default : string) : string :=
  match if_true v with
  | Some s => s
  | None => default
  end.

(** [output.append(item)] *)
Definition append_item {A : Type} (output : list A) (item : A) : list A :=
  (output ++ [item])%list.

(** How an f-string shows a [str | None] and an [int | None]. *)
Definition fmt_str (v : option string) : string :=
  match v with Some s => s | None => "None" end.

Definition fmt_int (v : option Z) : string :=
  match v with Some z => PyStr.str_int z | None => "None" end.

(** [asn_reader.asn(ip)]: the fields of the response that are read. *)
Record asn_response : Type := {
  autonomous_system_number : option Z;
  autonomous_system_organization : option string
}.

(** The dictionary [get_asn] returns. *)
Record asn_dict : Type := {
  d_asn : option Z;
  d_org : option string
}.

Section Tracer.

(** Python's [float], and its [str]. *)
Variable pyfloat : Type.
Variable str_float : pyfloat -> string.

Definition fmt_float (v : option pyfloat) : string :=
  match v with Some x => str_float x | None => "None" end.

(** [city_reader.city(ip)]: the fields of the response that are read.
    [subdivisions] is ordered from the least to the most specific, and
    every name is a [str] or [None]. *)
Record subdivision : Type := { subdivision_name : option string }.

Record city_response : Type := {
  city_name : option string;
  subdivisions : list subdivision;
  country_name : option string;
  location_latitude : option pyfloat;
  location_longitude : option pyfloat
}.

(** [subdivisions.most_specific] of a non-empty tuple: its last entry. *)
Definition most_specific (subs : list subdivision) : subdivision :=
  last subs {| subdivision_name := None |}.

(** The dictionary [get_location] returns. *)
Record location_dict : Type := {
  d_city : string;
  d_region : option string;          (* a subdivision's name can be [None] *)
  d_country : string;
  d_lat : option pyfloat;
  d_lon : option pyfloat
}.

(** What the outside world answers. *)
Record world : Type := {
  path_exists : string -> bool;
  reader_open : string -> outcome unit;
  city : string -> outcome city_response;
  asn : string -> outcome asn_response;
  gethostbyname : string -> outcome string;
  os_name : string;
  now : string;          (* datetime.now().strftime('%Y-%m-%d %H:%M:%S') *)
  popen : list string -> outcome process
}.

Variable w : world.

(** [LocalGeoTraceroute.__init__] *)
Definition init (city_db_path asn_db_path : string) : io unit :=
  if negb (path_exists w city_db_path) then
    raise (Exception ("GeoLite2 City database not found at " ++ city_db_path))
  else if negb (path_exists w asn_db_path) then
    raise (Exception ("GeoLite2 ASN database not found at " ++ asn_db_path))
  else
    call (EvOpen city_db_path) (reader_open w city_db_path) ;;
    call (EvOpen asn_db_path) (reader_open w asn_db_path).

Definition get_location (ip : string) : io (option location_dict) :=
  try_except
    (response <- call (EvCity ip) (city w ip) ;;
     ret (Some {|
       d_city := or_default (city_name response) "N/A";
       d_region :=
         match subdivisions response with
         | [] => Some "N/A"
         | _ :: _ => subdivision_name (most_specific (subdivisions response))
         end;
       d_country := or_default (country_name response) "N/A";
       d_lat := location_latitude response;
       d_lon := location_longitude response
     |}))
    (fun _ => ret None).

Definition get_asn (ip : string) : io (option asn_dict) :=
  try_except
    (response <- call (EvAsn ip) (asn w ip) ;;
     ret (Some {|
       d_asn := autonomous_system_number response;
       d_org := autonomous_system_organization response
     |}))
    (fun _ => ret None).

(** The list [output] of [format_hop], just before it is joined. *)
Definition format_hop_output (hop_number : nat) (ip : string)
           (location : option location_dict) (asn_info : option asn_dict)
           (raw_output : string) : list string :=
  let output := [] in
  let output :=
    append_item output
      (NL ++ BOLD ++ BLUE ++ "#" ++ PyStr.str_nat hop_number ++ " " ++ ip ++ RESET) in
  let output :=
    match location with
    | Some l =>
        let output :=
          append_item output
            ("   " ++ d_city l ++ ", " ++ fmt_str (d_region l) ++ ", " ++ d_country l) in
        append_item output
          ("   (" ++ fmt_float (d_lat l) ++ ", " ++ fmt_float (d_lon l) ++ ")")
    | None => output
    end in
  let output :=
    match asn_info with
    | Some a =>
        append_item output
          ("   " ++ GREEN ++ "AS" ++ fmt_int (d_asn a) ++ " - "
             ++ fmt_str (d_org a) ++ RESET)
    | None => output
    end in
  let output :=
    match location, asn_info with
    | None, None => append_item output "   Private IP or not found in database"
    | _, _ => output
    end in
  output.

Definition format_hop (hop_number : nat) (ip : string)
           (location : option location_dict) (asn_info : option asn_dict)
           (raw_output : string) : string :=
  PyStr.join NL (format_hop_output hop_number ip location asn_info raw_output).

Definition resolve_target (destination : string) : io (option string) :=
  try_except
    (ip <- call (EvResolve destination) (gethostbyname w destination) ;;
     ret (Some ip))
    (fun _ => ret None).

(** The body of [for line in process.stdout], from the value of
    [hop_number] before the line to its value after. *)
Definition hop_step (line : string) (hop_number : nat) : io nat :=
  if is_header line then ret hop_number
  else
    match Re.search ip_pattern line with
    | Some ip =>
        let hop_number := hop_number + 1 in
        location <- get_location ip ;;
        asn_info <- get_asn ip ;;
        print (format_hop hop_number ip location asn_info (PyStr.strip line)) ;;
        call EvFlush (Return tt) ;;
        ret hop_number
    | None => ret hop_number
    end.

Fixpoint read_loop (out : stream) (hop_number : nat) : io nat :=
  match out with
  | Eof => ret hop_number
  | Line line rest =>
      hop_number <- hop_step line hop_number ;;
      read_loop rest hop_number
  | ReadError e => raise e
  end.

(** The command list of lines 116-119. *)
Definition command (destination : string) : list string :=
  if os_name w =? "nt" then ["tracert"; destination]
  else ["traceroute"; "-n"; destination].

(** [run_traceroute_realtime], lines 99-112: resolution, the two
    lookups of the target and the summary block. *)
Definition print_summary (destination : string) : io unit :=
  target_ip <- resolve_target destination ;;
  location <- match if_true target_ip with
              | Some ip => get_location ip
              | None => ret None
              end ;;
  asn_info <- match if_true target_ip with
              | Some ip => get_asn ip
              | None => ret None
              end ;;
  print (NL ++ "Geo-Enhanced Traceroute") ;;
  print ("Time: " ++ now w) ;;
  print ("Target: " ++ destination) ;;
  match if_true target_ip with
  | Some ip =>
      print ("Resolved IP: " ++ BOLD ++ ip ++ RESET) ;;
      match location with
      | Some l =>
          print ("Location: " ++ d_city l ++ ", " ++ fmt_str (d_region l)
                   ++ ", " ++ d_country l)
      | None => ret tt
      end ;;
      match asn_info with
      | Some a =>
          print ("Network: " ++ GREEN ++ "AS" ++ fmt_int (d_asn a) ++ " - "
                   ++ fmt_str (d_org a) ++ RESET)
      | None => ret tt
      end
  | None => ret tt
  end ;;
  print (PyStr.repeat_char "-" 45).

(** [run_traceroute_realtime], lines 114-157: the [try] block, its
    handler and the final [return True]. *)
Definition trace (destination : string) : io bool :=
  try_except
    (let cmd := command destination in
     process <- call (EvPopen cmd) (popen w cmd) ;;
     read_loop (stdout process) 0 ;;
     call EvWait (Return tt) ;;
     (if (returncode process =? 0)%Z then ret tt
      else print (NL ++ "Warning: Traceroute process ended with non-zero status")) ;;
     ret true)
    (fun e =>
       print (NL ++ "Error during traceroute: " ++ str_exn e) ;;
       ret false).

Definition run_traceroute_realtime (destination : string) : io bool :=
  print_summary destination ;;
  trace destination.

(** [main], with [sys.argv] as argument: the calls made and the exit
    status of the process. *)
Definition main (argv : list string) : list event * Z :=
  if negb (List.length argv =? 2)%nat then
    ([EvPrint "Usage: python tracer.py <destination>";
      EvPrint "Example: python tracer.py google.com"], 1%Z)
  else
    let destination := nth 1 argv "" in
    match (init CITY_DB_PATH ASN_DB_PATH ;;
           run_traceroute_realtime destination) with
    | (t, Return _) => (t, 0%Z)
    | (t, Raise e) => ((t ++ [EvPrint ("Error: " ++ str_exn e)])%list, 1%Z)
    end.

End Tracer.

(* ================================================================== *)
(** ** The object and its teardown *)

(** The two reader attributes of a [LocalGeoTraceroute] object: [None]
    is an attribute that was never assigned ([hasattr] is false),
    [Some path] a reader opened on [path]. *)
Record tracer : Type := {
  city_reader : option string;
  asn_reader : option string
}.

(** [reader.close()] *)
Inductive close_event : Type :=
| EvClose (path : string).

Definition closed_path (e : close_event) : string :=
  match e with EvClose path => path end.

Section Teardown.

Variable pyfloat : Type.
Variable w : world pyfloat.

(** [LocalGeoTraceroute.__init__] once more, now with the object as the
    call leaves it, whether it returns or raises. *)
Definition init_object (city_db_path asn_db_path : string) : io unit * tracer :=
  let self := {| city_reader := None; asn_reader := None |} in
  if negb (path_exists w city_db_path) then
    (raise (Exception ("GeoLite2 City database not found at " ++ city_db_path)), self)
  else if negb (path_exists w asn_db_path) then
    (raise (Exception ("GeoLite2 ASN database not found at " ++ asn_db_path)), self)
  else
    match reader_open w city_db_path with
    | Raise e => (([EvOpen city_db_path], Raise e), self)
    | Return _ =>
        let self := {| city_reader := Some city_db_path;
                       asn_reader := asn_reader self |} in
        match reader_open w asn_db_path with
        | Raise e => (([EvOpen city_db_path; EvOpen asn_db_path], Raise e), self)
        | Return _ =>
            let self := {| city_reader := city_reader self;
                           asn_reader := Some asn_db_path |} in
            (([EvOpen city_db_path; EvOpen asn_db_path], Return tt), self)
        end
    end.

(** [LocalGeoTraceroute.__del__]: the readers it closes, in order. *)
Definition del (self : tracer) : list close_event :=
  (match city_reader self with
   | Some path => [EvClose path]
   | None => []
   end
   ++ match asn_reader self with
      | Some path => [EvClose path]
      | None => []
      end)%list.

End Teardown.

(* ================================================================== *)
(** ** Vocabulary of the properties *)

(** [sub] is a substring of [s], starting after [pre]. *)
Definition occurs_at (pre sub s : string) : Prop :=
  exists post, s = pre ++ sub ++ post.

Definition occurs_in (sub s : string) : Prop :=
  exists pre, occurs_at pre sub s.

(** One to three decimal digits. *)
Definition digit_group (g : string) : Prop :=
  (1 <= String.length g <= 3)%nat /\ PyStr.all PyStr.is_digit g = true.

(** Four digit groups separated by dots; no group is compared with 255. *)
Definition dotted_quad (m : string) : Prop :=
  exists a b c d,
    m = a ++ "." ++ b ++ "." ++ c ++ "." ++ d
    /\ digit_group a /\ digit_group b /\ digit_group c /\ digit_group d.

(** The first three groups, each with its dot. *)
Definition three_groups (s : string) : Prop :=
  exists a b c,
    s = a ++ "." ++ b ++ "." ++ c ++ "."
    /\ digit_group a /\ digit_group b /\ digit_group c.

(** The text begins with no digit. *)
Definition no_digit_ahead (rest : string) : Prop :=
  match rest with
  | EmptyString => True
  | String c _ => PyStr.is_digit c = false
  end.

(** A matcher against a set of words [L]: whatever [m] matches is a word
    of [L] followed by text the continuation accepts; and [m] finds a
    match whenever there is one. *)
Definition sound (m : Re.matcher) (L : string -> Prop) : Prop :=
  forall s k x, m s k = Some x ->
    exists a rest, s = a ++ rest /\ L a /\ k rest = Some x.

Definition complete (m : Re.matcher) (L : string -> Prop) : Prop :=
  forall a rest k, L a -> k rest <> None -> m (a ++ rest) k <> None.

Definition upto (L : string -> Prop) (e : nat) (s : string) : Prop :=
  exists n, (n <= e)%nat /\ Re.power L n s.

Definition followed (L1 L2 : string -> Prop) (s : string) : Prop :=
  exists s1 s2, s = s1 ++ s2 /\ L1 s1 /\ L2 s2.

(** [line] holds [phrase] in some mix of upper and lower case. *)
Definition has_phrase (phrase line : string) : Prop :=
  exists word, occurs_in word line /\ PyStr.lower word = phrase.

Definition banner (line : string) : Prop :=
  has_phrase "traceroute to" line \/ has_phrase "tracing route to" line.

(** The lines a stream yields, and the exception that ends it, if any. *)
Fixpoint lines_of (out : stream) : list string :=
  match out with
  | Eof => []
  | Line line rest => line :: lines_of rest
  | ReadError _ => []
  end.

Fixpoint stream_error (out : stream) : option exn :=
  match out with
  | Eof => None
  | Line _ rest => stream_error rest
  | ReadError e => Some e
  end.

(** A stream that yields [lines] and then ends. *)
Fixpoint stream_of (lines : list string) : stream :=
  match lines with
  | [] => Eof
  | line :: rest => Line line (stream_of rest)
  end.

(** The address of a line that is not a banner, with the line. *)
Definition hop_of (line : string) : option (string * string) :=
  if is_header line then None
  else match Re.search ip_pattern line with
       | Some ip => Some (ip, line)
       | None => None
       end.

Fixpoint hops_of (lines : list string) : list (string * string) :=
  match lines with
  | [] => []
  | line :: rest =>
      match hop_of line with
      | Some h => h :: hops_of rest
      | None => hops_of rest
      end
  end.

(** [first, first + 1, ...] paired with the entries of a list. *)
Fixpoint number_from {A : Type} (first : nat) (l : list A) : list (nat * A) :=
  match l with
  | [] => []
  | x :: l' => (first, x) :: number_from (S first) l'
  end.

(** What a computation returned, for one that cannot raise. *)
Definition value {A : Type} (m : io (option A)) : option A :=
  match snd m with
  | Return v => v
  | Raise _ => None
  end.

Section Emitted.

Variable pyfloat : Type.
Variable str_float : pyfloat -> string.
Variable w : world pyfloat.

(** The calls one hop makes: both lookups, then the block, then the flush. *)
Definition hop_events (h : nat * (string * string)) : list event :=
  let '(n, (ip, line)) := h in
  [EvCity ip; EvAsn ip;
   EvPrint (format_hop str_float n ip (value (get_location w ip))
              (value (get_asn w ip)) (PyStr.strip line));
   EvFlush].

(** The calls the lines of a stream make, numbered from [first]. *)
Definition emitted (first : nat) (lines : list string) : list event :=
  flat_map hop_events (number_from first (hops_of lines)).

(** The hop calls made before the subprocess failed: none when the
    launch failed, else those of the lines read before the failure. *)
Definition streamed (destination : string) : list event :=
  match popen w (command w destination) with
  | Return p => emitted 1 (lines_of (stdout p))
  | Raise _ => []
  end.

(** The subprocess of [destination] fails with [e]: the launch raises
    it, or reading the output does. *)
Inductive subprocess_fails (destination : string) (e : exn) : Prop :=
| launch_fails :
    popen w (command w destination) = Raise e ->
    subprocess_fails destination e
| read_fails (p : process) :
    popen w (command w destination) = Return p ->
    stream_error (stdout p) = Some e ->
    subprocess_fails destination e.

End Emitted.

(** A character of a dotted quad. *)
Definition quad_char (c : ascii) : bool := PyStr.is_digit c || PyStr.is_dot c.

(** [sum(1 for c in s if p(c))] *)
Fixpoint count_char (p : ascii -> bool) (s : string) : nat :=
  match s with
  | EmptyString => 0
  | String c s' => (if p c then 1 else 0) + count_char p s'
  end.

(** How many calls of a kind a trace holds. *)
Definition count_events (p : event -> bool) (t : list event) : nat :=
  List.length (filter p t).




Definition is_print (e : event) : bool :=
  match e with EvPrint _ => true | _ => false end.

Definition is_flush (e : event) : bool :=
  match e with EvFlush => true | _ => false end.

Definition is_lookup (e : event) : bool :=
  match e with EvCity _ | EvAsn _ => true | _ => false end.

(** The stream that yields [lines] and then goes on as [out]. *)
Fixpoint prepend (lines : list string) (out : stream) : stream :=
  match lines with
  | [] => out
  | line :: rest => Line line (prepend rest out)
  end.

(** The lines of a rendered hop, as the properties name them. *)
Definition header_line (hop_number : nat) (ip : string) : string :=
  NL ++ BOLD ++ BLUE ++ "#" ++ PyStr.str_nat hop_number ++ " " ++ ip ++ RESET.

Definition place_line (pyfloat : Type) (l : location_dict pyfloat) : string :=
  "   " ++ d_city l ++ ", " ++ fmt_str (d_region l) ++ ", " ++ d_country l.

Definition coordinates_line (pyfloat : Type) (str_float : pyfloat -> string)
           (l : location_dict pyfloat) : string :=
  "   (" ++ fmt_float str_float (d_lat l) ++ ", " ++ fmt_float str_float (d_lon l) ++ ")".

Definition owner_line (a : asn_dict) : string :=
  "   " ++ GREEN ++ "AS" ++ fmt_int (d_asn a) ++ " - " ++ fmt_str (d_org a) ++ RESET.

Definition unknown_line : string := "   Private IP or not found in database".

(** The two messages of [run_traceroute_realtime]. *)
Definition error_message (e : exn) : string :=
  NL ++ "Error during traceroute: " ++ str_exn e.

Definition warning_message : string :=
  NL ++ "Warning: Traceroute process ended with non-zero status".

(* ================================================================== *)
(** ** Sample worlds

    The trace of the specification's example, with floats held as their
    decimal text. *)

Definition show_float (x : string) : string := x.

Definition sample_lines : list string :=
  ["traceroute to example.com (93.184.216.34), 30 hops max" ++ NL;
   " 1  192.168.1.1  1.234 ms" ++ NL;
   " 2  * * *" ++ NL;
   " 3  93.184.216.34  20.1 ms" ++ NL].

Definition not_in_database (ip : string) : exn :=
  Exception ("The address " ++ ip ++ " is not in the database.").

(** 93.184.216.34 is fully described; 203.0.113.7 lies in a subdivision
    the database has no name for; every other address is unknown. *)
Definition sample_city (ip : string) : outcome (city_response string) :=
  if ip =? "93.184.216.34" then
    Return {| city_name := Some "Norwell";
              subdivisions := [{| subdivision_name := Some "Massachusetts" |}];
              country_name := Some "United States";
              location_latitude := Some "42.1596";
              location_longitude := Some "-70.8217" |}
  else if ip =? "203.0.113.7" then
    Return {| city_name := None;
              subdivisions := [{| subdivision_name := None |}];
              country_name := Some "Australia";
              location_latitude := Some "-33.494";
              location_longitude := Some "143.2104" |}
  else Raise (not_in_database ip).

Definition sample_asn (ip : string) : outcome asn_response :=
  if ip =? "93.184.216.34" then
    Return {| autonomous_system_number := Some 15133%Z;
              autonomous_system_organization := Some "EDGECAST" |}
  else Raise (not_in_database ip).

Definition sample_world (resolve : outcome string) (launch : outcome process)
  : world string :=
  {| path_exists := fun _ => true;
     reader_open := fun _ => Return tt;
     city := sample_city;
     asn := sample_asn;
     gethostbyname := fun _ => resolve;
     os_name := "posix";
     now := "2024-05-01 12:00:00";
     popen := fun _ => launch |}.

Definition no_such_file : exn :=
  Exception "[Errno 2] No such file or directory: 'traceroute'".

Definition broken_read : exn := Exception "[Errno 5] Input/output error".


(** The example, ending with exit status 0. *)
Definition world_example : world string :=
  sample_world (Return "93.184.216.34")
    (Return {| stdout := stream_of sample_lines; returncode := 0 |}).

(** The same output, but the child exits with status 1. *)
Definition world_nonzero : world string :=
  sample_world (Return "93.184.216.34")
    (Return {| stdout := stream_of sample_lines; returncode := 1 |}).


(** The read fails after the first hop. *)
Definition world_read_error : world string :=
  sample_world (Return "93.184.216.34")
    (Return {| stdout := Line (" 1  192.168.1.1  1.234 ms" ++ NL) (ReadError broken_read);
               returncode := 0 |}).


(** The ASN database file is missing. *)
Definition world_no_asn_db : world string :=
  {| path_exists := fun path => negb (path =? ASN_DB_PATH);
     reader_open := fun _ => Return tt;
     city := sample_city;
     asn := sample_asn;
     gethostbyname := fun _ => Return "93.184.216.34";
     os_name := "posix";
     now := "2024-05-01 12:00:00";
     popen := fun _ => Return {| stdout := stream_of sample_lines; returncode := 0 |} |}.

(* ================================================================== *)
(** ** Strings *)

Lemma append_nil_r (s : string) : s ++ "" = s.
Proof. induction s as [|c s IH]; simpl; congruence. Qed.

Lemma append_assoc (a b c : string) : (a ++ b) ++ c = a ++ b ++ c.
Proof. induction a as [|x a IH]; simpl; congruence. Qed.

Lemma length_append (a b : string) :
  String.length (a ++ b) = String.length a + String.length b.
Proof. induction a as [|x a IH]; simpl; congruence. Qed.

Lemma substring_prefix (m rest : string) :
  substring 0 (String.length (m ++ rest) - String.length rest) (m ++ rest) = m.
Proof.
  rewrite length_append, Nat.add_sub.
  induction m as [|c m IH]; simpl.
  - destruct rest; reflexivity.
  - now rewrite IH.
Qed.

Lemma prefix_iff (a s : string) :
  prefix a s = true <-> exists post, s = a ++ post.
Proof.
  revert s; induction a as [|c a IH]; intros s.
  - split; [intros _; now exists s | intros _; destruct s; reflexivity].
  - destruct s as [|c' s]; simpl.
    + split; [discriminate | intros [post H]; discriminate].
    + destruct (ascii_dec c c') as [->|Hne].
      * rewrite IH. split; intros [post H]; exists post; congruence.
      * split; [discriminate | intros [post H]; congruence].
Qed.

Lemma contains_unfold (sub s : string) :
  PyStr.contains sub s =
  if prefix sub s then true
  else match s with
       | EmptyString => false
       | String _ s' => PyStr.contains sub s'
       end.
Proof. destruct s; reflexivity. Qed.

Lemma contains_iff (sub s : string) :
  PyStr.contains sub s = true <-> occurs_in sub s.
Proof.
  induction s as [|c s IH]; rewrite contains_unfold.
  - destruct (prefix sub "") eqn:P.
    + split; [intros _ | reflexivity].
      apply prefix_iff in P as [post P]. exists "", post. exact P.
    + split; [discriminate|].
      intros [pre [post H]]. destruct pre; [|discriminate].
      assert (prefix sub "" = true) by (apply prefix_iff; now exists post).
      congruence.
  - destruct (prefix sub (String c s)) eqn:P.
    + split; [intros _ | reflexivity].
      apply prefix_iff in P as [post P]. exists "", post. exact P.
    + rewrite IH. split.
      * intros [pre [post H]]. exists (String c pre), post. simpl. now rewrite H.
      * intros [pre [post H]]. destruct pre as [|c' pre].
        -- assert (prefix sub (String c s) = true) by (apply prefix_iff; now exists post).
           congruence.
        -- exists pre, post. simpl in H. congruence.
Qed.

Lemma lower_append (a b : string) :
  PyStr.lower (a ++ b) = PyStr.lower a ++ PyStr.lower b.
Proof. induction a as [|c a IH]; simpl; congruence. Qed.

Lemma lower_split (s a b : string) :
  PyStr.lower s = a ++ b ->
  exists a' b', s = a' ++ b' /\ PyStr.lower a' = a /\ PyStr.lower b' = b.
Proof.
  revert s; induction a as [|x a IH]; intros s H.
  - exists "", s. auto.
  - destruct s as [|c s]; [discriminate|].
    simpl in H. injection H as Hc Hs.
    destruct (IH s Hs) as [a' [b' [E [Ha Hb]]]].
    exists (String c a'), b'. simpl. repeat split; congruence.
Qed.

Lemma lower_occurs (phrase line : string) :
  occurs_in phrase (PyStr.lower line) <-> has_phrase phrase line.
Proof.
  split.
  - intros [pre [post H]].
    apply lower_split in H as [pre' [rest [E [_ Hrest]]]].
    apply lower_split in Hrest as [word [post' [E' [Hword _]]]].
    exists word. split; [|exact Hword].
    exists pre', post'. congruence.
  - intros [word [[pre [post H]] Hlow]]. subst line phrase.
    exists (PyStr.lower pre), (PyStr.lower post). now rewrite !lower_append.
Qed.

Lemma is_header_iff (line : string) : is_header line = true <-> banner line.
Proof.
  unfold is_header, banner.
  now rewrite orb_true_iff, !contains_iff, !lower_occurs.
Qed.

(* ================================================================== *)
(** ** The matcher against the words of a pattern *)

Section Matcher.

Import Re.

Lemma power_add (L : string -> Prop) (n1 n2 : nat) (s1 s2 : string) :
  power L n1 s1 -> power L n2 s2 -> power L (n1 + n2) (s1 ++ s2).
Proof.
  revert s1; induction n1 as [|n1 IH]; intros s1 H1 H2; simpl in *.
  - now subst s1.
  - destruct H1 as [a [b [E [Ha Hb]]]]. subst s1.
    exists a, (b ++ s2). rewrite append_assoc. auto.
Qed.

Lemma power_split (L : string -> Prop) (n1 n2 : nat) (s : string) :
  power L (n1 + n2) s ->
  exists s1 s2, s = s1 ++ s2 /\ power L n1 s1 /\ power L n2 s2.
Proof.
  revert s; induction n1 as [|n1 IH]; intros s H; simpl in *.
  - exists "", s. auto.
  - destruct H as [a [b [E [Ha Hb]]]].
    destruct (IH b Hb) as [s1 [s2 [E' [H1 H2]]]]. subst.
    exists (a ++ s1), s2. 
    split; [now rewrite ?append_assoc|]. split; [|exact H2].
    exists a, s1. auto.
Qed.

Lemma rep_upto_sound (m : matcher) (L : string -> Prop) (e : nat) :
  sound m L -> sound (rep_upto m e) (upto L e).
Proof.
  intros Hm. induction e as [|e IH]; intros s k x H; simpl in H.
  - exists "", s. split; [reflexivity|]. split; [|exact H].
    exists 0. simpl. auto.
  - destruct (m s (fun s' => rep_upto m e s' k)) as [r|] eqn:M.
    + injection H as ->.
      apply Hm in M as [a [rest [E [La K]]]].
      apply IH in K as [b [rest' [E' [[n [Hn P]] K]]]].
      exists (a ++ b), rest'. subst.
      split; [now rewrite ?append_assoc|]. split; [|exact K].
      exists (S n). split; [lia|]. exists a, b. auto.
    + exists "", s. split; [reflexivity|]. split; [|exact H].
      exists 0. simpl. split; [lia|reflexivity].
Qed.

Lemma rep_exact_sound (m after : matcher) (L L' : string -> Prop) (lo : nat) :
  sound m L -> sound after L' ->
  sound (rep_exact m lo after) (followed (power L lo) L').
Proof.
  intros Hm Ha. induction lo as [|lo IH]; intros s k x H; simpl in H.
  - apply Ha in H as [a [rest [E [La K]]]].
    exists a, rest. split; [exact E|]. split; [|exact K].
    exists "", a. simpl. auto.
  - apply Hm in H as [a [rest [E [La K]]]].
    apply IH in K as [b [rest' [E' [[b1 [b2 [Eb [P1 P2]]]] K]]]].
    exists (a ++ b), rest'. subst.
    split; [now rewrite ?append_assoc|]. split; [|exact K].
    exists (a ++ b1), b2. 
    split; [now rewrite ?append_assoc|]. split; [|exact P2].
    exists a, b1. auto.
Qed.

Lemma rep_upto_complete (m : matcher) (L : string -> Prop) (e : nat) :
  complete m L -> complete (rep_upto m e) (upto L e).
Proof.
  intros Hm. induction e as [|e IH]; intros a rest k [n [Hn P]] K; simpl.
  - assert (n = 0) by lia. subst n. simpl in P. now subst a.
  - destruct n as [|n].
    + simpl in P. subst a. simpl.
      destruct (m rest _); [discriminate|exact K].
    + destruct P as [a1 [a2 [E [La P]]]]. subst a. rewrite append_assoc.
      assert (M : m (a1 ++ a2 ++ rest) (fun s' => rep_upto m e s' k) <> None).
      { apply Hm; [exact La|]. apply IH; [|exact K]. exists n. split; [lia|exact P]. }
      destruct (m (a1 ++ a2 ++ rest) _); [discriminate|congruence].
Qed.

Lemma rep_exact_complete (m after : matcher) (L L' : string -> Prop) (lo : nat) :
  complete m L -> complete after L' ->
  complete (rep_exact m lo after) (followed (power L lo) L').
Proof.
  intros Hm Ha. induction lo as [|lo IH];
    intros a rest k [s1 [s2 [E [P L2]]]] K; simpl in *.
  - subst s1 a. simpl. now apply Ha.
  - destruct P as [a1 [a2 [E' [La P]]]]. subst. rewrite !append_assoc.
    apply Hm; [exact La|]. rewrite <- append_assoc.
    apply IH; [|exact K]. exists a2, s2. auto.
Qed.

Lemma repeat_lang (L : string -> Prop) (lo e : nat) (s : string) :
  followed (power L lo) (upto L e) s <->
  exists n, (lo <= n <= lo + e)%nat /\ power L n s.
Proof.
  split.
  - intros [s1 [s2 [E [P [n [Hn P']]]]]]. subst s.
    exists (lo + n). split; [lia|]. now apply power_add.
  - intros [n [Hn P]]. replace n with (lo + (n - lo)) in P by lia.
    apply power_split in P as [s1 [s2 [E [P1 P2]]]].
    exists s1, s2. split; [exact E|]. split; [exact P1|].
    exists (n - lo). split; [lia|exact P2].
Qed.

Lemma rmatch_sound (r : regex) : sound (rmatch r) (lang r).
Proof.
  induction r as [p|r1 IH1 r2 IH2|lo hi r IH]; intros s k x H; simpl in H.
  - destruct s as [|c s]; [discriminate|].
    destruct (p c) eqn:Pc; [|discriminate].
    exists (String c ""), s. split; [reflexivity|]. split; [|exact H].
    exists c. auto.
  - apply IH1 in H as [a [rest [E [La K]]]].
    apply IH2 in K as [b [rest' [E' [Lb K]]]].
    exists (a ++ b), rest'. subst.
    split; [now rewrite ?append_assoc|]. split; [|exact K].
    exists a, b. auto.
  - apply (rep_exact_sound (L := lang r) (L' := upto (lang r) (hi - lo))) in H;
      [|exact IH|now apply rep_upto_sound].
    destruct H as [a [rest [E [La K]]]].
    exists a, rest. split; [exact E|]. split; [|exact K].
    simpl. now apply repeat_lang.
Qed.

Lemma rmatch_complete (r : regex) : complete (rmatch r) (lang r).
Proof.
  induction r as [p|r1 IH1 r2 IH2|lo hi r IH]; intros a rest k La K; simpl in *.
  - destruct La as [c [E Pc]]. subst a. simpl. now rewrite Pc.
  - destruct La as [s1 [s2 [E [L1 L2]]]]. subst a. rewrite append_assoc.
    apply IH1; [exact L1|]. now apply IH2.
  - apply (rep_exact_complete (L := lang r) (L' := upto (lang r) (hi - lo)));
      [exact IH|now apply rep_upto_complete| |exact K].
    now apply repeat_lang.
Qed.

(** [re.match]: the text returned is a word of the pattern at the
    start of [s]; and [None] means no word of the pattern starts [s]. *)
Lemma match_at_some (r : regex) (s m : string) :
  match_at r s = Some m -> lang r m /\ occurs_at "" m s.
Proof.
  unfold match_at. destruct (rmatch r s Some) as [rest|] eqn:M; [|discriminate].
  intros H. injection H as <-.
  apply rmatch_sound in M as [a [rest' [E [La K]]]].
  injection K as ->. subst s. rewrite substring_prefix.
  split; [exact La|]. now exists rest.
Qed.

Lemma match_at_none (r : regex) (s m : string) :
  match_at r s = None -> lang r m -> ~ occurs_at "" m s.
Proof.
  unfold match_at. destruct (rmatch r s Some) as [rest|] eqn:M; [discriminate|].
  intros _ Lm [post E]. simpl in E. subst s.
  refine (rmatch_complete r m post Some Lm _ M). discriminate.
Qed.

(** [re.search]: a word of the pattern, at the first position of [s]
    where one starts. *)
Lemma search_some (r : regex) (s m : string) :
  search r s = Some m ->
  exists pre rest,
    s = pre ++ rest /\ match_at r rest = Some m /\
    forall pre' m', lang r m' -> occurs_at pre' m' s ->
                    (String.length pre <= String.length pre')%nat.
Proof.
  revert m; induction s as [|c s IH]; intros m H; simpl in H.
  - destruct (match_at r "") as [m0|] eqn:M; [|discriminate].
    injection H as ->. exists "", "".
    split; [reflexivity|]. split; [exact M|]. intros; simpl; lia.
  - destruct (match_at r (String c s)) as [m0|] eqn:M.
    + injection H as ->. exists "", (String c s).
      split; [reflexivity|]. split; [exact M|]. intros; simpl; lia.
    + destruct (IH m H) as [pre [rest [E [Hm Hmin]]]].
      exists (String c pre), rest.
      split; [simpl; now rewrite E|]. split; [exact Hm|].
      intros pre' m' Lm' O'. destruct pre' as [|c' pre'].
      * exfalso. exact (match_at_none _ M Lm' O').
      * destruct O' as [post' E']. simpl in E'. injection E' as _ E'.
        simpl. apply le_n_S. apply (Hmin pre' m' Lm'). now exists post'.
Qed.

Lemma search_none (r : regex) (s m : string) :
  search r s = None -> lang r m -> ~ occurs_in m s.
Proof.
  induction s as [|c s IH]; intros H Lm [pre O]; simpl in H.
  - destruct (match_at r "") eqn:M; [discriminate|].
    destruct O as [post E]. destruct pre; [|discriminate].
    apply (match_at_none _ M Lm). now exists post.
  - destruct (match_at r (String c s)) eqn:M; [discriminate|].
    destruct pre as [|c' pre].
    + exact (match_at_none _ M Lm O).
    + destruct O as [post E]. simpl in E. injection E as _ E.
      apply (IH H Lm). exists pre, post. exact E.
Qed.

End Matcher.

(* ================================================================== *)
(** ** The words of [ip_pattern] are the dotted quads *)

Lemma power_class (p : ascii -> bool) (n : nat) (g : string) :
  Re.power (Re.lang (Re.Class p)) n g <->
  String.length g = n /\ PyStr.all p g = true.
Proof.
  revert g; induction n as [|n IH]; intros g; simpl.
  - split.
    + intros ->. auto.
    + intros [H _]. destruct g; [reflexivity|discriminate].
  - split.
    + intros [s1 [s2 [E [[c [-> Pc]] P]]]]. subst g.
      apply IH in P as [Hl Ha]. simpl. rewrite Pc, Ha, Hl. auto.
    + intros [Hl Ha]. destruct g as [|c g]; [discriminate|].
      simpl in *. apply andb_true_iff in Ha as [Pc Ha].
      exists (String c ""), g. split; [reflexivity|]. split.
      * exists c. auto.
      * apply IH. split; congruence.
Qed.

Lemma octet_lang (g : string) : Re.lang octet g <-> digit_group g.
Proof.
  unfold octet, digit_group. simpl. split.
  - intros [n [Hn P]]. apply power_class in P as [Hl Ha].
    split; [lia|exact Ha].
  - intros [Hl Ha]. exists (String.length g). split; [lia|].
    apply power_class. auto.
Qed.

Lemma dot_lang (s : string) : Re.lang (Re.Class PyStr.is_dot) s <-> s = ".".
Proof.
  simpl. unfold PyStr.is_dot. split.
  - intros [c [-> H]]. apply Ascii.eqb_eq in H. now subst c.
  - intros ->. exists "."%char. auto.
Qed.

Lemma three_groups_lang (s : string) :
  Re.lang (Re.Repeat 3 3 (Re.Cat octet (Re.Class PyStr.is_dot))) s
  <-> three_groups s.
Proof.
  assert (G : forall x, Re.lang (Re.Cat octet (Re.Class PyStr.is_dot)) x
                        <-> exists g, x = g ++ "." /\ digit_group g).
  { intros x. change (Re.lang (Re.Cat octet (Re.Class PyStr.is_dot)) x)
      with (exists s1 s2, x = s1 ++ s2 /\ Re.lang octet s1
                          /\ Re.lang (Re.Class PyStr.is_dot) s2).
    split.
    - intros [s1 [s2 [E [L1 L2]]]]. apply octet_lang in L1. apply dot_lang in L2.
      subst. now exists s1.
    - intros [g [E Dg]]. exists g, ".". split; [exact E|].
      split; [now apply octet_lang|now apply dot_lang]. }
  change (Re.lang (Re.Repeat 3 3 (Re.Cat octet (Re.Class PyStr.is_dot))) s)
    with (exists n, (3 <= n <= 3 + (3 - 3))%nat
                    /\ Re.power (Re.lang (Re.Cat octet (Re.Class PyStr.is_dot))) n s).
  split.
  - intros [n [Hn P]]. assert (n = 3) by lia. subst n.
    destruct P as [x1 [y1 [E1 [L1 [x2 [y2 [E2 [L2 [x3 [y3 [E3 [L3 E4]]]]]]]]]]]].
    apply G in L1 as [a [-> Da]]. apply G in L2 as [b [-> Db]].
    apply G in L3 as [c [-> Dc]]. simpl in E4. subst.
    exists a, b, c. rewrite append_nil_r, !append_assoc. auto.
  - intros [a [b [c [E [Da [Db Dc]]]]]]. exists 3. split; [lia|].
    exists (a ++ "."), (b ++ "." ++ c ++ "."). split; [now rewrite E, !append_assoc|].
    split; [apply G; now exists a|].
    exists (b ++ "."), (c ++ "."). split; [now rewrite !append_assoc|].
    split; [apply G; now exists b|].
    exists (c ++ "."), "". split; [now rewrite append_nil_r|].
    split; [apply G; now exists c|reflexivity].
Qed.

Lemma ip_pattern_lang (m : string) : Re.lang ip_pattern m <-> dotted_quad m.
Proof.
  unfold ip_pattern.
  change (Re.lang (Re.Cat (Re.Repeat 3 3 (Re.Cat octet (Re.Class PyStr.is_dot))) octet) m)
    with (exists s1 s2, m = s1 ++ s2
            /\ Re.lang (Re.Repeat 3 3 (Re.Cat octet (Re.Class PyStr.is_dot))) s1
            /\ Re.lang octet s2).
  split.
  - intros [s1 [s2 [E [L1 L2]]]].
    apply three_groups_lang in L1 as [a [b [c [E1 [Da [Db Dc]]]]]].
    apply octet_lang in L2. subst.
    exists a, b, c, s2. rewrite !append_assoc. auto.
  - intros [a [b [c [d [E [Da [Db [Dc Dd]]]]]]]].
    exists (a ++ "." ++ b ++ "." ++ c ++ "."), d.
    split; [now rewrite E, !append_assoc|].
    split; [apply three_groups_lang; now exists a, b, c|now apply octet_lang].
Qed.

(* ================================================================== *)
(** ** The match is the longest dotted quad at its position *)

(** The last group is greedy: it stops at three digits, or at a
    character that is no digit, or at the end of the text. *)
Lemma octet_greedy (s x : string) :
  Re.rmatch octet s Some = Some x ->
  exists d, s = d ++ x /\ digit_group d
            /\ (String.length d = 3 \/ no_digit_ahead x).
Proof.
  unfold octet, digit_group. cbn [Re.rmatch Re.rep_exact Re.rep_upto Nat.sub].
  destruct s as [|c1 s]; [discriminate|].
  destruct (PyStr.is_digit c1) eqn:D1; [|discriminate].
  destruct s as [|c2 s].
  { intros H; injection H as <-. exists (String c1 "").
    simpl. rewrite D1. repeat split; auto. }
  destruct (PyStr.is_digit c2) eqn:D2.
  2:{ intros H; injection H as <-. exists (String c1 "").
      simpl. rewrite D1. repeat split; auto. }
  destruct s as [|c3 s].
  { intros H; injection H as <-. exists (String c1 (String c2 "")).
    simpl. rewrite D1, D2. repeat split; auto. }
  destruct (PyStr.is_digit c3) eqn:D3.
  2:{ intros H; injection H as <-. exists (String c1 (String c2 "")).
      simpl. rewrite D1, D2. repeat split; auto. }
  intros H; injection H as <-. exists (String c1 (String c2 (String c3 ""))).
  simpl. rewrite D1, D2, D3. repeat split; auto.
Qed.

Lemma group_unique (a a' x x' : string) :
  PyStr.all PyStr.is_digit a = true -> PyStr.all PyStr.is_digit a' = true ->
  a ++ "." ++ x = a' ++ "." ++ x' -> a = a' /\ x = x'.
Proof.
  revert a'; induction a as [|c a IH]; intros a' Ha Ha' E.
  - destruct a' as [|c' a']; simpl in *.
    + split; congruence.
    + injection E as <- _. discriminate.
  - destruct a' as [|c' a']; simpl in *.
    + injection E as -> _. discriminate.
    + injection E as -> E.
      apply andb_true_iff in Ha as [_ Ha]. apply andb_true_iff in Ha' as [_ Ha'].
      destruct (IH a' Ha Ha' E) as [-> ->]. auto.
Qed.

Lemma tail_longest (d d' post post' : string) :
  PyStr.all PyStr.is_digit d' = true ->
  d ++ post = d' ++ post' -> no_digit_ahead post ->
  (String.length d' <= String.length d)%nat.
Proof.
  revert d'; induction d as [|c d IH]; intros d' Hd' E N.
  - destruct d' as [|c' d']; [simpl; lia|].
    simpl in *. subst post. simpl in N.
    apply andb_true_iff in Hd' as [Hc _]. congruence.
  - destruct d' as [|c' d']; [simpl; lia|].
    simpl in *. injection E as _ E.
    apply andb_true_iff in Hd' as [_ Hd'].
    apply le_n_S. now apply IH.
Qed.

Lemma match_at_longest (s m m' : string) :
  Re.match_at ip_pattern s = Some m ->
  dotted_quad m' -> occurs_at "" m' s ->
  (String.length m' <= String.length m)%nat.
Proof.
  unfold Re.match_at.
  destruct (Re.rmatch ip_pattern s Some) as [rest|] eqn:M; [|discriminate].
  intros H. injection H as <-.
  unfold ip_pattern in M. cbn [Re.rmatch] in M.
  change (Re.rep_exact ?m 3 (Re.rep_upto ?m (3 - 3)) s ?k)
    with (Re.rmatch (Re.Repeat 3 3 (Re.Cat octet (Re.Class PyStr.is_dot))) s k) in M.
  apply rmatch_sound in M as [abc [tl [E [L3 K]]]].
  apply three_groups_lang in L3 as [a [b [c [Eabc [Da [Db Dc]]]]]].
  apply octet_greedy in K as [d [Etl [Dd G]]].
  intros [a' [b' [c' [d' [Em' [Da' [Db' [Dc' Dd']]]]]]]] [post' O].
  simpl in O.
  assert (Es : s = (abc ++ d) ++ rest) by (now rewrite E, Etl, append_assoc).
  rewrite Es in O |- *. rewrite substring_prefix.
  subst abc m'. rewrite !append_assoc in O.
  apply group_unique in O as [<- O]; [|apply Da|apply Da'].
  apply group_unique in O as [<- O]; [|apply Db|apply Db'].
  apply group_unique in O as [<- O]; [|apply Dc|apply Dc'].
  assert (String.length d' <= String.length d)%nat.
  { destruct G as [G|G].
    - destruct Dd' as [Hl _]. lia.
    - apply (tail_longest d d' rest post'); [apply Dd'|exact O|exact G]. }
  rewrite !length_append. lia.
Qed.

Lemma occurs_at_same (pre pre' rest m s : string) :
  s = pre ++ rest -> occurs_at pre' m s ->
  String.length pre = String.length pre' ->
  occurs_at "" m rest.
Proof.
  intros -> [post E]. revert pre' E.
  induction pre as [|c pre IH]; intros pre' E Hl.
  - destruct pre'; [|discriminate]. now exists post.
  - destruct pre' as [|c' pre']; [discriminate|].
    simpl in *. injection E as _ E. apply (IH pre' E). lia.
Qed.

(* ================================================================== *)
(** ** Address extraction *)

Lemma search_ip_some (line ip : string) :
  Re.search ip_pattern line = Some ip ->
  dotted_quad ip /\
  exists pre, occurs_at pre ip line /\
    forall pre' m', dotted_quad m' -> occurs_at pre' m' line ->
      (String.length pre < String.length pre')%nat
      \/ (String.length pre = String.length pre'
          /\ String.length m' <= String.length ip)%nat.
Proof.
  intros H.
  apply search_some in H as [pre [rest [E [M Hmin]]]].
  destruct (match_at_some _ _ M) as [Lip [post O]].
  split; [now apply ip_pattern_lang|].
  exists pre. split; [exists post; now rewrite E, O|].
  intros pre' m' Dm' O'.
  assert (Hle := Hmin pre' m' (proj2 (ip_pattern_lang m') Dm') O').
  destruct (Nat.eq_dec (String.length pre) (String.length pre')) as [Heq|Hne];
    [right|left; lia].
  split; [exact Heq|].
  eapply match_at_longest; [exact M|exact Dm'|].
  eapply occurs_at_same; [exact E|exact O'|exact Heq].
Qed.

Lemma search_ip_none (line : string) :
  Re.search ip_pattern line = None <->
  forall m, dotted_quad m -> ~ occurs_in m line.
Proof.
  split.
  - intros H m Dm. eapply search_none; [exact H|]. now apply ip_pattern_lang.
  - intros H. destruct (Re.search ip_pattern line) as [ip|] eqn:S; [|reflexivity].
    destruct (search_ip_some _ S) as [Dip [pre O]].
    exfalso. apply (H ip Dip). exists pre. apply O.
Qed.

Lemma hop_of_none (line : string) :
  hop_of line = None <->
  banner line \/ forall m, dotted_quad m -> ~ occurs_in m line.
Proof.
  rewrite <- is_header_iff, <- search_ip_none. unfold hop_of.
  destruct (is_header line).
  - split; auto.
  - destruct (Re.search ip_pattern line).
    + split; [discriminate|]. intros [H|H]; discriminate.
    + split; auto.
Qed.

(** C3: [re.search(self.ip_pattern, line)] returns the first substring of
    the line that is a dotted quad (four groups of one to three digits
    separated by dots): it is a dotted quad of the line, no dotted quad
    of the line starts earlier, and none that starts at the same place
    is longer.  It returns [None] exactly when no substring of the line
    is a dotted quad.  No group is checked against 255:
    "999.999.999.999" is returned as an address. *)
Theorem C3_search_first_dotted_quad :
  forall line : string,
    (forall ip, Re.search ip_pattern line = Some ip ->
       dotted_quad ip /\
       exists pre, occurs_at pre ip line /\
         forall pre' m', dotted_quad m' -> occurs_at pre' m' line ->
           (String.length pre < String.length pre')%nat
           \/ (String.length pre = String.length pre'
               /\ String.length m' <= String.length ip)%nat)
    /\ (Re.search ip_pattern line = None <->
        forall m, dotted_quad m -> ~ occurs_in m line)
    /\ Re.search ip_pattern "999.999.999.999" = Some "999.999.999.999".
Proof.
  intros line. split; [|split].
  - intros ip. apply search_ip_some.
  - apply search_ip_none.
  - reflexivity.
Qed.

(* ================================================================== *)
(** ** The lookups, the read loop and the run *)

Section Run.

Variable pyfloat : Type.
Variable str_float : pyfloat -> string.
Variable w : world pyfloat.

Lemma get_location_eq (ip : string) :
  get_location w ip = ([EvCity ip], Return (value (get_location w ip))).
Proof.
  unfold value, get_location, try_except, bind, call, ret.
  destruct (city w ip); reflexivity.
Qed.

Lemma get_asn_eq (ip : string) :
  get_asn w ip = ([EvAsn ip], Return (value (get_asn w ip))).
Proof.
  unfold value, get_asn, try_except, bind, call, ret.
  destruct (asn w ip); reflexivity.
Qed.

Lemma hop_step_eq (line : string) (n : nat) :
  hop_step str_float w line n =
  match hop_of line with
  | Some h => (hop_events str_float w (S n, h), Return (S n))
  | None => ([], Return n)
  end.
Proof.
  unfold hop_step, hop_of.
  destruct (is_header line); [reflexivity|].
  destruct (Re.search ip_pattern line) as [ip|]; [|reflexivity].
  unfold hop_events, value, get_location, get_asn, try_except, bind, call, ret, print.
  rewrite Nat.add_1_r.
  destruct (city w ip); destruct (asn w ip); reflexivity.
Qed.

Lemma read_loop_eq (out : stream) (n : nat) :
  read_loop str_float w out n =
  (emitted str_float w (S n) (lines_of out),
   match stream_error out with
   | None => Return (n + List.length (hops_of (lines_of out)))
   | Some e => Raise e
   end).
Proof.
  revert n; induction out as [|line rest IH|e]; intros n.
  - simpl. unfold ret, emitted. simpl. now rewrite Nat.add_0_r.
  - unfold emitted in *. cbn [read_loop lines_of stream_error hops_of].
    rewrite hop_step_eq. destruct (hop_of line) as [h|].
    + unfold bind. rewrite IH. cbn [number_from flat_map List.length].
      destruct (stream_error rest); [reflexivity|].
      now rewrite Nat.add_succ_r.
    + unfold bind. rewrite IH. simpl. reflexivity.
  - reflexivity.
Qed.

Lemma print_summary_returns (destination : string) :
  snd (print_summary w destination) = Return tt.
Proof.
  unfold print_summary, resolve_target, try_except, call, bind, ret, print.
  destruct (gethostbyname w destination) as [ip|e]; simpl.
  - destruct (ip =? ""); simpl; [reflexivity|].
    unfold get_location, get_asn, try_except, call, bind, ret.
    destruct (city w ip); destruct (asn w ip); reflexivity.
  - reflexivity.
Qed.

Lemma print_summary_eq (destination : string) :
  print_summary w destination = (fst (print_summary w destination), Return tt).
Proof.
  pose proof (print_summary_returns destination) as H.
  destruct (print_summary w destination) as [t r]. simpl in *. now subst r.
Qed.

(** The three ways [trace] ends: the launch raises, a read raises, or
    the stream ends and the child is waited for. *)
Lemma trace_eq (destination : string) :
  trace str_float w destination =
  match popen w (command w destination) with
  | Raise e =>
      ([EvPopen (command w destination); EvPrint (error_message e)],
       Return false)
  | Return p =>
      match stream_error (stdout p) with
      | Some e =>
          (EvPopen (command w destination)
             :: emitted str_float w 1 (lines_of (stdout p))
             ++ [EvPrint (error_message e)],
           Return false)
      | None =>
          (EvPopen (command w destination)
             :: emitted str_float w 1 (lines_of (stdout p))
             ++ EvWait
             :: (if (returncode p =? 0)%Z then []
                 else [EvPrint warning_message]),
           Return true)
      end
  end%list.
Proof.
  unfold trace, try_except, call. cbn [bind].
  destruct (popen w (command w destination)) as [p|e]; [|reflexivity].
  rewrite read_loop_eq. unfold bind, ret, print, call.
  destruct (stream_error (stdout p)) as [e|].
  - reflexivity.
  - destruct (returncode p =? 0)%Z; cbn [app]; rewrite ?app_nil_r; reflexivity.
Qed.

Lemma run_eq (destination : string) :
  run_traceroute_realtime str_float w destination =
  ((fst (print_summary w destination) ++ fst (trace str_float w destination))%list,
   snd (trace str_float w destination)).
Proof.
  unfold run_traceroute_realtime. rewrite print_summary_eq at 1.
  unfold bind. now destruct (trace str_float w destination).
Qed.

Lemma number_from_fst (A : Type) (l : list A) (first : nat) :
  map fst (number_from first l) = seq first (List.length l).
Proof.
  revert first; induction l as [|x l IH]; intros first; simpl; [reflexivity|].
  now rewrite IH.
Qed.

Lemma number_from_snd (A : Type) (l : list A) (first : nat) :
  map snd (number_from first l) = l.
Proof.
  revert first; induction l as [|x l IH]; intros first; simpl; [reflexivity|].
  now rewrite IH.
Qed.

End Run.

(* ================================================================== *)
(** ** Sequence numbers *)

(** C1: whatever lines the subprocess stream yields, the hops emitted
    are those of the lines that are no banner and hold a dotted quad, in
    arrival order, and they carry the numbers 1, 2, 3, ...: a line with
    an address makes its calls under the next number and advances the
    counter by one; a banner line or a line with no dotted quad makes no
    call and leaves the counter as it is. *)
Theorem C1_sequence_numbers :
  forall (pyfloat : Type) (str_float : pyfloat -> string)
         (w : world pyfloat) (out : stream),
    fst (read_loop str_float w out 0)
      = flat_map (hop_events str_float w)
                 (number_from 1 (hops_of (lines_of out)))
    /\ map fst (number_from 1 (hops_of (lines_of out)))
       = seq 1 (List.length (hops_of (lines_of out)))
    /\ map snd (number_from 1 (hops_of (lines_of out))) = hops_of (lines_of out)
    /\ (stream_error out = None ->
        snd (read_loop str_float w out 0)
          = Return (List.length (hops_of (lines_of out))))
    /\ (forall line n h,
          hop_of line = Some h ->
          hop_step str_float w line n
            = (hop_events str_float w (S n, h), Return (S n)))
    /\ (forall line n,
          banner line \/ (forall m, dotted_quad m -> ~ occurs_in m line) ->
          hop_step str_float w line n = ([], Return n)).
Proof.
  intros pyfloat str_float w out.
  rewrite read_loop_eq. unfold emitted. cbn [fst snd].
  split; [reflexivity|].
  split; [apply number_from_fst|].
  split; [apply number_from_snd|].
  split; [intros ->; reflexivity|].
  split.
  - intros line n h H. now rewrite hop_step_eq, H.
  - intros line n H. apply hop_of_none in H. now rewrite hop_step_eq, H.
Qed.

(** C2: a line that holds "traceroute to" or "tracing route to" in any
    mix of upper and lower case is skipped before the pattern is tried:
    no address is taken from it, no call is made for it and the counter
    keeps its value, whatever else the line holds. *)
Theorem C2_banner_lines_skipped :
  forall (pyfloat : Type) (str_float : pyfloat -> string)
         (w : world pyfloat) (line : string) (n : nat),
    banner line ->
    hop_of line = None /\ hop_step str_float w line n = ([], Return n).
Proof.
  intros pyfloat str_float w line n B.
  assert (H : hop_of line = None) by (apply hop_of_none; now left).
  split; [exact H|]. now rewrite hop_step_eq, H.
Qed.

(* ================================================================== *)
(** ** Lookups *)

(** C4: [get_location] and [get_asn] return for every address string:
    each makes its one database call and returns a value; when the call
    raises, whatever the exception, the value is [None]. *)
Theorem C4_lookups_never_raise :
  forall (pyfloat : Type) (w : world pyfloat) (ip : string),
    (exists v, get_location w ip = ([EvCity ip], Return v))
    /\ (exists v, get_asn w ip = ([EvAsn ip], Return v))
    /\ (forall e, city w ip = Raise e ->
                  get_location w ip = ([EvCity ip], Return None))
    /\ (forall e, asn w ip = Raise e ->
                  get_asn w ip = ([EvAsn ip], Return None)).
Proof.
  intros pyfloat w ip.
  split; [eexists; apply get_location_eq|].
  split; [eexists; apply get_asn_eq|].
  split; intros e H.
  - unfold get_location, try_except, bind, call, ret. now rewrite H.
  - unfold get_asn, try_except, bind, call, ret. now rewrite H.
Qed.

(** X1: what a successful location lookup returns, field by field: city and
    country are the database's name, or "N/A" when the name is [None] or
    empty; latitude and longitude are the database's; region is "N/A"
    when the record has no subdivision, and otherwise the name of the
    most specific subdivision as it is, be it [None] or empty. *)
Lemma get_location_fields (pyfloat : Type) (w : world pyfloat) (ip : string)
      (response : city_response pyfloat) :
  city w ip = Return response ->
  exists l, value (get_location w ip) = Some l
    /\ d_city l <> "" /\ d_country l <> ""
    /\ (if_true (city_name response) = None -> d_city l = "N/A")
    /\ (if_true (country_name response) = None -> d_country l = "N/A")
    /\ (forall s, if_true (city_name response) = Some s -> d_city l = s)
    /\ (forall s, if_true (country_name response) = Some s -> d_country l = s)
    /\ d_lat l = location_latitude response
    /\ d_lon l = location_longitude response
    /\ (subdivisions response = [] -> d_region l = Some "N/A")
    /\ (subdivisions response <> [] ->
        d_region l = subdivision_name (most_specific (subdivisions response))).
Proof.
  intros H. unfold value, get_location, try_except, bind, call, ret. rewrite H.
  eexists. split; [reflexivity|]. cbn [d_city d_country d_lat d_lon d_region].
  assert (N : forall v, or_default v "N/A" <> "").
  { intros v. unfold or_default, if_true. destruct v as [s|]; [|discriminate].
    destruct (s =? "") eqn:E; [discriminate|]. now apply String.eqb_neq in E. }
  split; [apply N|]. split; [apply N|].
  unfold or_default.
  split; [now intros ->|]. split; [now intros ->|].
  split; [now intros s ->|]. split; [now intros s ->|].
  split; [reflexivity|]. split; [reflexivity|].
  destruct (subdivisions response); split; congruence.
Qed.

(** C5 (at the failing input): for 203.0.113.7, whose only subdivision
    has no name, the lookup succeeds and the region of the result is
    [None], not "N/A"; the summary and the hop block then show "None". *)
Lemma C5_region_is_None_not_marker :
  value (get_location world_example "203.0.113.7")
    = Some {| d_city := "N/A"; d_region := None; d_country := "Australia";
              d_lat := Some "-33.494"; d_lon := Some "143.2104" |}
  /\ (forall l, value (get_location world_example "203.0.113.7") = Some l ->
                place_line l = "   N/A, None, Australia").
Proof.
  split; [reflexivity|].
  intros l H. cbv in H. injection H as <-. reflexivity.
Qed.

(* ================================================================== *)
(** ** Rendering *)

(** C10: [format_hop] joins, with newlines, the header line (number and
    address), then the place line and the coordinates line exactly when
    a location is given, then the owner line exactly when an owner is
    given, then the one line "Private IP or not found in database"
    exactly when neither is given; and the result is the same for every
    raw line. *)
Theorem C10_format_hop_lines :
  forall (pyfloat : Type) (str_float : pyfloat -> string)
         (hop_number : nat) (ip : string)
         (location : option (location_dict pyfloat))
         (asn_info : option asn_dict) (raw_output : string),
    format_hop str_float hop_number ip location asn_info raw_output
      = PyStr.join NL
          (header_line hop_number ip
             :: match location with
                | Some l => [place_line l; coordinates_line str_float l]
                | None => []
                end
             ++ match asn_info with
                | Some a => [owner_line a]
                | None => []
                end
             ++ match location, asn_info with
                | None, None => [unknown_line]
                | _, _ => []
                end)%list
    /\ forall raw_output',
         format_hop str_float hop_number ip location asn_info raw_output
         = format_hop str_float hop_number ip location asn_info raw_output'.
Proof.
  intros pyfloat str_float hop_number ip location asn_info raw_output.
  split; [|reflexivity].
  destruct location as [l|]; destruct asn_info as [a|]; reflexivity.
Qed.

(* ================================================================== *)
(** ** The run *)

(** C7: when the output stream ends and the child's exit status is not
    0, the run makes the calls of every hop of the stream, waits for the
    child, prints the warning and returns [True]. *)
Theorem C7_nonzero_exit_is_a_warning :
  forall (pyfloat : Type) (str_float : pyfloat -> string)
         (w : world pyfloat) (destination : string) (p : process),
    popen w (command w destination) = Return p ->
    stream_error (stdout p) = None ->
    returncode p <> 0%Z ->
    run_traceroute_realtime str_float w destination
      = ((fst (print_summary w destination)
            ++ EvPopen (command w destination)
            :: emitted str_float w 1 (lines_of (stdout p))
            ++ [EvWait; EvPrint warning_message])%list,
         Return true).
Proof.
  intros pyfloat str_float w destination p Hp He Hrc.
  rewrite run_eq, trace_eq, Hp, He.
  apply Z.eqb_neq in Hrc. rewrite Hrc. reflexivity.
Qed.

(** C8: when launching the subprocess or reading its output raises [e],
    the run catches it: after the calls of the hops read before the
    failure, which stay as they were made, it prints the error message
    with [str(e)] and returns [False]. *)
Theorem C8_subprocess_exception_caught :
  forall (pyfloat : Type) (str_float : pyfloat -> string)
         (w : world pyfloat) (destination : string) (e : exn),
    subprocess_fails w destination e ->
    run_traceroute_realtime str_float w destination
      = ((fst (print_summary w destination)
            ++ EvPopen (command w destination)
            :: streamed str_float w destination
            ++ [EvPrint (error_message e)])%list,
         Return false).
Proof.
  intros pyfloat str_float w destination e H.
  rewrite run_eq, trace_eq. unfold streamed.
  destruct H as [Hl|p Hp He].
  - now rewrite Hl.
  - now rewrite Hp, He.
Qed.



(* ================================================================== *)
(** ** The properties on the sample worlds *)

(** The example of the specification: two hops, numbered 1 and 2. *)
Example example_hops :
  hops_of sample_lines
  = [("192.168.1.1", " 1  192.168.1.1  1.234 ms" ++ NL);
     ("93.184.216.34", " 3  93.184.216.34  20.1 ms" ++ NL)].
Proof. reflexivity. Qed.

Example example_run :
  run_traceroute_realtime show_float world_example "example.com"
  = ([EvResolve "example.com"; EvCity "93.184.216.34"; EvAsn "93.184.216.34";
      EvPrint (NL ++ "Geo-Enhanced Traceroute");
      EvPrint "Time: 2024-05-01 12:00:00";
      EvPrint "Target: example.com";
      EvPrint ("Resolved IP: " ++ BOLD ++ "93.184.216.34" ++ RESET);
      EvPrint "Location: Norwell, Massachusetts, United States";
      EvPrint ("Network: " ++ GREEN ++ "AS15133 - EDGECAST" ++ RESET);
      EvPrint "---------------------------------------------";
      EvPopen ["traceroute"; "-n"; "example.com"];
      EvCity "192.168.1.1"; EvAsn "192.168.1.1";
      EvPrint (NL ++ BOLD ++ BLUE ++ "#1 192.168.1.1" ++ RESET ++ NL
                 ++ "   Private IP or not found in database");
      EvFlush;
      EvCity "93.184.216.34"; EvAsn "93.184.216.34";
      EvPrint (NL ++ BOLD ++ BLUE ++ "#2 93.184.216.34" ++ RESET ++ NL
                 ++ "   Norwell, Massachusetts, United States" ++ NL
                 ++ "   (42.1596, -70.8217)" ++ NL
                 ++ "   " ++ GREEN ++ "AS15133 - EDGECAST" ++ RESET);
      EvFlush;
      EvWait],
     Return true).
Proof. reflexivity. Qed.

Example example_private_addresses :
  get_location world_example "10.0.0.1" = ([EvCity "10.0.0.1"], Return None)
  /\ get_asn world_example "10.0.0.1" = ([EvAsn "10.0.0.1"], Return None)
  /\ get_location world_example "192.168.1.1" = ([EvCity "192.168.1.1"], Return None)
  /\ get_asn world_example "192.168.1.1" = ([EvAsn "192.168.1.1"], Return None).
Proof. repeat split. Qed.

Example example_missing_database :
  main show_float
       {| path_exists := fun path => negb (path =? ASN_DB_PATH);
          reader_open := fun _ => Return tt;
          city := sample_city; asn := sample_asn;
          gethostbyname := fun _ => Return "93.184.216.34";
          os_name := "posix"; now := "2024-05-01 12:00:00";
          popen := fun _ => Raise no_such_file |}
       ["tracer.py"; "example.com"]
  = ([EvPrint "Error: GeoLite2 ASN database not found at GeoLite2-ASN.mmdb"], 1%Z).
Proof. reflexivity. Qed.

Example example_wrong_arguments :
  main show_float world_example ["tracer.py"]
  = ([EvPrint "Usage: python tracer.py <destination>";
      EvPrint "Example: python tracer.py google.com"], 1%Z).
Proof. reflexivity. Qed.

Lemma C2_banner_witness :
  banner "Tracing route to example.com [93.184.216.34]"
  /\ Re.search ip_pattern "Tracing route to example.com [93.184.216.34]"
     = Some "93.184.216.34"
  /\ hop_of "Tracing route to example.com [93.184.216.34]" = None
  /\ hop_step show_float world_example
       "Tracing route to example.com [93.184.216.34]" 7
     = ([], Return 7).
Proof.
  assert (B : banner "Tracing route to example.com [93.184.216.34]")
    by (apply is_header_iff; reflexivity).
  split; [exact B|]. split; [reflexivity|].
  apply (@C2_banner_lines_skipped string show_float world_example
            "Tracing route to example.com [93.184.216.34]" 7 B).
Defined.

Lemma C7_nonzero_exit_witness :
  run_traceroute_realtime show_float world_nonzero "example.com"
  = ((fst (print_summary world_nonzero "example.com")
        ++ EvPopen ["traceroute"; "-n"; "example.com"]
        :: emitted show_float world_nonzero 1 sample_lines
        ++ [EvWait; EvPrint warning_message])%list,
     Return true).
Proof.
  apply (@C7_nonzero_exit_is_a_warning string show_float world_nonzero
            "example.com" {| stdout := stream_of sample_lines; returncode := 1 |});
    [reflexivity|reflexivity|discriminate].
Defined.

Lemma C8_read_error_witness :
  subprocess_fails world_read_error "example.com" broken_read
  /\ run_traceroute_realtime show_float world_read_error "example.com"
     = ((fst (print_summary world_read_error "example.com")
           ++ [EvPopen ["traceroute"; "-n"; "example.com"];
               EvCity "192.168.1.1"; EvAsn "192.168.1.1";
               EvPrint (NL ++ BOLD ++ BLUE ++ "#1 192.168.1.1" ++ RESET ++ NL
                          ++ "   Private IP or not found in database");
               EvFlush;
               EvPrint (NL ++ "Error during traceroute: [Errno 5] Input/output error")])%list,
        Return false).
Proof.
  assert (F : subprocess_fails world_read_error "example.com" broken_read)
    by (eapply read_fails; reflexivity).
  split; [exact F|].
  apply (@C8_subprocess_exception_caught string show_float world_read_error
            "example.com" broken_read F).
Defined.




Lemma get_location_fields_witness :
  exists l, value (get_location world_example "93.184.216.34") = Some l
    /\ d_city l <> "" /\ d_country l <> ""
    /\ (if_true (Some "Norwell") = None -> d_city l = "N/A")
    /\ (if_true (Some "United States") = None -> d_country l = "N/A")
    /\ (forall s, if_true (Some "Norwell") = Some s -> d_city l = s)
    /\ (forall s, if_true (Some "United States") = Some s -> d_country l = s)
    /\ d_lat l = Some "42.1596"
    /\ d_lon l = Some "-70.8217"
    /\ ([{| subdivision_name := Some "Massachusetts" |}] = [] ->
        d_region l = Some "N/A")
    /\ ([{| subdivision_name := Some "Massachusetts" |}] <> [] ->
        d_region l = Some "Massachusetts").
Proof.
  apply (@get_location_fields string world_example "93.184.216.34"
           {| city_name := Some "Norwell";
              subdivisions := [{| subdivision_name := Some "Massachusetts" |}];
              country_name := Some "United States";
              location_latitude := Some "42.1596";
              location_longitude := Some "-70.8217" |}).
  reflexivity.
Defined.

(* ================================================================== *)
(** ** Further properties: the shape of an extracted address *)

Lemma all_append (p : ascii -> bool) (a b : string) :
  PyStr.all p (a ++ b) = PyStr.all p a && PyStr.all p b.
Proof.
  induction a as [|c a IH]; simpl; [reflexivity|]. now rewrite IH, andb_assoc.
Qed.

Lemma count_char_append (p : ascii -> bool) (a b : string) :
  count_char p (a ++ b) = count_char p a + count_char p b.
Proof. induction a as [|c a IH]; simpl; [reflexivity|]. rewrite IH. lia. Qed.

Lemma digits_quad_chars (g : string) :
  PyStr.all PyStr.is_digit g = true ->
  PyStr.all quad_char g = true /\ count_char PyStr.is_dot g = 0.
Proof.
  induction g as [|c g IH]; simpl; [auto|].
  intros H. apply andb_true_iff in H as [Hc Hg].
  destruct (IH Hg) as [IH1 IH2]. unfold quad_char at 1. rewrite Hc, IH1, IH2. simpl.
  split; [reflexivity|].
  destruct (PyStr.is_dot c) eqn:D; [|reflexivity].
  unfold PyStr.is_dot in D. apply Ascii.eqb_eq in D. subst c. discriminate.
Qed.

Lemma dotted_quad_shape (m : string) :
  dotted_quad m ->
  (7 <= String.length m <= 15)%nat
  /\ PyStr.all quad_char m = true
  /\ count_char PyStr.is_dot m = 3.
Proof.
  intros [a [b [c [d [E [[La Da] [[Lb Db] [[Lc Dc] [Ld Dd]]]]]]]]]. subst m.
  destruct (digits_quad_chars _ Da) as [Qa Na].
  destruct (digits_quad_chars _ Db) as [Qb Nb].
  destruct (digits_quad_chars _ Dc) as [Qc Nc].
  destruct (digits_quad_chars _ Dd) as [Qd Nd].
  rewrite !length_append, !all_append, !count_char_append.
  rewrite Qa, Qb, Qc, Qd, Na, Nb, Nc, Nd. simpl. split; [lia|]. split; reflexivity.
Qed.

(** X7: the address [re.search(self.ip_pattern, line)] takes from a line,
    which is what both lookups and the hop header receive, is 7 to 15
    characters long, is made of digits and dots only, and has exactly
    three dots. *)
Theorem extracted_address_shape :
  forall line ip : string,
    Re.search ip_pattern line = Some ip ->
    (7 <= String.length ip <= 15)%nat
    /\ PyStr.all quad_char ip = true
    /\ count_char PyStr.is_dot ip = 3.
Proof.
  intros line ip H. apply dotted_quad_shape. now apply search_ip_some in H.
Qed.

Lemma append_length_nil (x post : string) :
  (String.length (x ++ post) <= String.length x)%nat -> post = "".
Proof.
  rewrite length_append. destruct post; [reflexivity|simpl; lia].
Qed.

(** X8: a line that is a dotted quad and nothing else is returned whole:
    the pattern drops no digit of any group, whatever the groups' values
    (so every IPv4 address in dotted notation, and also "999.999.999.999",
    comes back unchanged). *)
Theorem dotted_quad_found_whole :
  forall m : string, dotted_quad m -> Re.search ip_pattern m = Some m.
Proof.
  intros m D.
  assert (O : occurs_at "" m m) by (exists ""; simpl; now rewrite append_nil_r).
  destruct (Re.search ip_pattern m) as [x|] eqn:S.
  - destruct (search_ip_some _ S) as [Dx [pre [[post E] Hmin]]].
    destruct (Hmin "" m D O) as [Hlt|[Heq Hle]]; [simpl in Hlt; lia|].
    destruct pre; [|discriminate]. simpl in E.
    assert (post = "") by (apply (append_length_nil x); now rewrite <- E).
    subst post. rewrite append_nil_r in E. now subst x.
  - exfalso. apply (proj1 (search_ip_none m) S m D). now exists "".
Qed.

(* ================================================================== *)
(** ** Further properties: the object *)

(** X11: [__del__] closes the readers [__init__] finished opening, each
    once and in the order they were opened, and nothing else: both when
    [__init__] returned; all but the one whose opening raised when it
    raised; none when a database file was missing.  ([init_object] makes
    the calls of [init] and ends as it does.) *)
Theorem del_closes_opened_readers :
  forall (pyfloat : Type) (w : world pyfloat) (city_db_path asn_db_path : string),
    fst (init_object w city_db_path asn_db_path) = init w city_db_path asn_db_path
    /\ map (fun e => EvOpen (closed_path e))
           (del (snd (init_object w city_db_path asn_db_path)))
       = match snd (init w city_db_path asn_db_path) with
         | Return _ => fst (init w city_db_path asn_db_path)
         | Raise _ => removelast (fst (init w city_db_path asn_db_path))
         end.
Proof.
  intros pyfloat w city_db_path asn_db_path.
  unfold init_object, init, raise, call, bind.
  destruct (path_exists w city_db_path); cbn [negb]; [|split; reflexivity].
  destruct (path_exists w asn_db_path); cbn [negb]; [|split; reflexivity].
  destruct (reader_open w city_db_path) as [[]|e]; [|split; reflexivity].
  destruct (reader_open w asn_db_path) as [[]|e]; split; reflexivity.
Qed.

(* ================================================================== *)
(** ** Further properties: the run and the process *)

Section More.

Variable pyfloat : Type.
Variable str_float : pyfloat -> string.
Variable w : world pyfloat.




Lemma init_missing (city_db_path asn_db_path : string) :
  path_exists w city_db_path = false \/ path_exists w asn_db_path = false ->
  init w city_db_path asn_db_path
  = ([], Raise (Exception
                  (if path_exists w city_db_path
                   then "GeoLite2 ASN database not found at " ++ asn_db_path
                   else "GeoLite2 City database not found at " ++ city_db_path))).
Proof.
  intros H. unfold init, raise.
  destruct (path_exists w city_db_path); cbn [negb]; [|reflexivity].
  destruct H as [H|H]; [discriminate|]. now rewrite H.
Qed.

(** X4: when either database file is missing the constructor raises
    before opening any reader, naming the city file if that one is
    missing and the ASN file otherwise; [main] then prints "Error: " with
    that message and exits with status 1, having made no resolution, no
    lookup and no subprocess launch. *)
Theorem missing_database_fails_fast (prog destination : string) :
  path_exists w CITY_DB_PATH = false \/ path_exists w ASN_DB_PATH = false ->
  init w CITY_DB_PATH ASN_DB_PATH
  = ([], Raise (Exception
                  (if path_exists w CITY_DB_PATH
                   then "GeoLite2 ASN database not found at GeoLite2-ASN.mmdb"
                   else "GeoLite2 City database not found at GeoLite2-City.mmdb")))
  /\ main str_float w [prog; destination]
     = ([EvPrint
           ("Error: " ++
            if path_exists w CITY_DB_PATH
            then "GeoLite2 ASN database not found at GeoLite2-ASN.mmdb"
            else "GeoLite2 City database not found at GeoLite2-City.mmdb")],
        1%Z).
Proof.
  intros H. apply init_missing in H.
  assert (E : init w CITY_DB_PATH ASN_DB_PATH
              = ([], Raise (Exception
                  (if path_exists w CITY_DB_PATH
                   then "GeoLite2 ASN database not found at GeoLite2-ASN.mmdb"
                   else "GeoLite2 City database not found at GeoLite2-City.mmdb")))).
  { rewrite H. now destruct (path_exists w CITY_DB_PATH). }
  split; [exact E|].
  unfold main. cbn [List.length Nat.eqb negb nth]. rewrite E. reflexivity.
Qed.

Lemma read_loop_prepend (lines : list string) (out : stream) (n : nat) :
  read_loop str_float w (prepend lines out) n
  = bind (read_loop str_float w (stream_of lines) n)
         (fun k => read_loop str_float w out k).
Proof.
  revert n; induction lines as [|line rest IH]; intros n.
  - cbn [prepend stream_of read_loop]. unfold bind, ret.
    now destruct (read_loop str_float w out n).
  - cbn [prepend stream_of read_loop].
    destruct (hop_step str_float w line n) as [t [k|e]]; unfold bind; [|reflexivity].
    rewrite IH. unfold bind.
    destruct (read_loop str_float w (stream_of rest) k) as [t1 [k1|e1]].
    + destruct (read_loop str_float w out k1) as [t2 r2]. now rewrite app_assoc.
    + reflexivity.
Qed.

Lemma lines_of_stream_of (lines : list string) : lines_of (stream_of lines) = lines.
Proof. induction lines as [|l ls IH]; simpl; congruence. Qed.

Lemma stream_error_stream_of (lines : list string) :
  stream_error (stream_of lines) = None.
Proof. induction lines as [|l ls IH]; simpl; congruence. Qed.

(** X5: the read loop is incremental.  On a stream that begins with
    [lines], it first makes exactly the calls it makes on [lines] alone,
    whatever follows (more lines, the end, or a read error), and then
    goes on with the rest of the stream from the counter those lines
    left, which is the starting value plus the number of their hops. *)
Theorem read_loop_incremental (lines : list string) (out : stream) (n : nat) :
  read_loop str_float w (stream_of lines) n
  = (emitted str_float w (S n) lines, Return (n + List.length (hops_of lines)))
  /\ read_loop str_float w (prepend lines out) n
     = ((fst (read_loop str_float w (stream_of lines) n)
           ++ fst (read_loop str_float w out (n + List.length (hops_of lines))))%list,
        snd (read_loop str_float w out (n + List.length (hops_of lines)))).
Proof.
  assert (E : read_loop str_float w (stream_of lines) n
              = (emitted str_float w (S n) lines,
                 Return (n + List.length (hops_of lines)))).
  { now rewrite read_loop_eq, lines_of_stream_of, stream_error_stream_of. }
  split; [exact E|].
  rewrite read_loop_prepend, E. unfold bind. cbn [fst].
  now destruct (read_loop str_float w out (n + List.length (hops_of lines))).
Qed.

Lemma count_events_app (p : event -> bool) (a b : list event) :
  count_events p (a ++ b) = count_events p a + count_events p b.
Proof. unfold count_events. now rewrite filter_app, length_app. Qed.

Lemma count_emitted (p : event -> bool) (per_hop first : nat) (lines : list string) :
  (forall h, count_events p (hop_events str_float w h) = per_hop) ->
  count_events p (emitted str_float w first lines)
  = per_hop * List.length (hops_of lines).
Proof.
  intros H. unfold emitted. generalize (hops_of lines) as hs. intros hs.
  revert first; induction hs as [|h hs IH]; intros first.
  - simpl. unfold count_events. simpl. lia.
  - cbn [number_from flat_map List.length]. rewrite count_events_app, H, IH. lia.
Qed.


Lemma hops_at_most_lines (lines : list string) :
  (List.length (hops_of lines) <= List.length lines)%nat.
Proof.
  induction lines as [|l ls IH]; simpl; [lia|].
  destruct (hop_of l); simpl; lia.
Qed.

(** X6: a line gives at most one hop, however many addresses it holds:
    over any stream the loop prints as many blocks as there are lines
    with an address that are no banner, which is at most the number of
    lines read; it flushes once per block and makes two lookups per
    block. *)
Theorem one_block_per_address_line (out : stream) (n : nat) :
  count_events is_print (fst (read_loop str_float w out n))
    = List.length (hops_of (lines_of out))
  /\ count_events is_flush (fst (read_loop str_float w out n))
     = List.length (hops_of (lines_of out))
  /\ count_events is_lookup (fst (read_loop str_float w out n))
     = 2 * List.length (hops_of (lines_of out))
  /\ (List.length (hops_of (lines_of out)) <= List.length (lines_of out))%nat.
Proof.
  rewrite read_loop_eq. cbn [fst].
  split; [|split; [|split]].
  - rewrite (@count_emitted is_print 1); [lia|]. now intros [k [ip line]].
  - rewrite (@count_emitted is_flush 1); [lia|]. now intros [k [ip line]].
  - rewrite (@count_emitted is_lookup 2); [lia|]. now intros [k [ip line]].
  - apply hops_at_most_lines.
Qed.

(** X9: when the destination resolves to [ip], the summary looks [ip] up
    in both databases once, before it prints anything, then prints the
    title, the time, the target and the resolved address, the location
    line exactly when the city lookup gave a result, the network line
    exactly when the ASN lookup did, and the rule.  An empty [ip] counts
    as no resolution: no lookup and no resolved-address line. *)
Theorem resolved_summary (destination ip : string) :
  gethostbyname w destination = Return ip ->
  print_summary w destination
  = if ip =? "" then
      ([EvResolve destination;
        EvPrint (NL ++ "Geo-Enhanced Traceroute");
        EvPrint ("Time: " ++ now w);
        EvPrint ("Target: " ++ destination);
        EvPrint (PyStr.repeat_char "-" 45)],
       Return tt)
    else
      (([EvResolve destination; EvCity ip; EvAsn ip;
         EvPrint (NL ++ "Geo-Enhanced Traceroute");
         EvPrint ("Time: " ++ now w);
         EvPrint ("Target: " ++ destination);
         EvPrint ("Resolved IP: " ++ BOLD ++ ip ++ RESET)]
          ++ match value (get_location w ip) with
             | Some l =>
                 [EvPrint ("Location: " ++ d_city l ++ ", " ++ fmt_str (d_region l)
                             ++ ", " ++ d_country l)]
             | None => []
             end
          ++ match value (get_asn w ip) with
             | Some a =>
                 [EvPrint ("Network: " ++ GREEN ++ "AS" ++ fmt_int (d_asn a) ++ " - "
                             ++ fmt_str (d_org a) ++ RESET)]
             | None => []
             end
          ++ [EvPrint (PyStr.repeat_char "-" 45)])%list,
       Return tt).
Proof.
  intros H.
  unfold print_summary, resolve_target, try_except, call, bind, ret, print.
  rewrite H. cbn [if_true].
  destruct (ip =? ""); [reflexivity|].
  unfold value, get_location, get_asn, try_except, call, bind, ret.
  destruct (city w ip); destruct (asn w ip); reflexivity.
Qed.



End More.

(* ================================================================== *)
(** ** The further properties on the sample worlds *)

Lemma extracted_address_shape_witness :
  (7 <= String.length "192.168.1.1" <= 15)%nat
  /\ PyStr.all quad_char "192.168.1.1" = true
  /\ count_char PyStr.is_dot "192.168.1.1" = 3.
Proof.
  apply (@extracted_address_shape " 1  192.168.1.1  1.234 ms" "192.168.1.1").
  reflexivity.
Defined.

Lemma dotted_quad_found_whole_witness :
  Re.search ip_pattern "10.0.0.1" = Some "10.0.0.1".
Proof.
  apply (@dotted_quad_found_whole "10.0.0.1").
  exists "10", "0", "0", "1".
  split; [reflexivity|].
  repeat split; simpl; lia.
Defined.

Lemma missing_database_witness :
  init world_no_asn_db CITY_DB_PATH ASN_DB_PATH
  = ([], Raise (Exception "GeoLite2 ASN database not found at GeoLite2-ASN.mmdb"))
  /\ main show_float world_no_asn_db ["tracer.py"; "example.com"]
     = ([EvPrint "Error: GeoLite2 ASN database not found at GeoLite2-ASN.mmdb"], 1%Z).
Proof.
  apply (@missing_database_fails_fast string show_float world_no_asn_db
            "tracer.py" "example.com").
  right. reflexivity.
Defined.

Lemma resolved_summary_witness :
  print_summary world_example "example.com"
  = ([EvResolve "example.com"; EvCity "93.184.216.34"; EvAsn "93.184.216.34";
      EvPrint (NL ++ "Geo-Enhanced Traceroute");
      EvPrint "Time: 2024-05-01 12:00:00";
      EvPrint "Target: example.com";
      EvPrint ("Resolved IP: " ++ BOLD ++ "93.184.216.34" ++ RESET);
      EvPrint "Location: Norwell, Massachusetts, United States";
      EvPrint ("Network: " ++ GREEN ++ "AS15133 - EDGECAST" ++ RESET);
      EvPrint "---------------------------------------------"],
     Return tt).
Proof.
  apply (@resolved_summary string world_example "example.com" "93.184.216.34").
  reflexivity.
Defined.
